(** * rockhound: the McMurray facies loader

    A shallow embedding of [rockhound/mcmurray_facies.py].  The module holds
    one function, [fetch_mcmurray_facies], which asks the pooch registry for
    an archive, reads a CSV with pandas and calls [rename] on the result.

    The registry, the CSV reader and [DataFrame.rename] are libraries the
    module only calls; they are taken as collaborators.  What the function
    itself does (the order of the calls, which exceptions it catches, which
    value it hands back) is written out below, with every call to a
    collaborator and every printed line recorded in a log. *)

From Stdlib Require Import String List.
Import ListNotations.
Open Scope string_scope.

(** ** Python values and exceptions *)

(** The exceptions the function can meet.  [except NotImplementedError] is
    the only handler in the module; everything else is one of the others. *)
Inductive PyExc : Type :=
| NotImplementedError
| AttributeError
| IndexError
| OtherError (name : string).

Definition is_NotImplementedError (e : PyExc) : bool :=
  match e with
  | NotImplementedError => true
  | _ => false
  end.

(** The outcome of evaluating a Python expression or call. *)
Inductive Result (A : Type) : Type :=
| Returns (a : A)
| Raises (e : PyExc).
Arguments Returns {A} a.
Arguments Raises {A} e.

(** A [pandas.DataFrame]: its column labels and its rows of cells. *)
Record DataFrame : Type := mkDataFrame {
  columns : list string;
  rows : list (list string)
}.

(** What [REGISTRY.fetch] hands back: one path, or the sequence of paths a
    processor extracted. *)
Inductive Fname : Type :=
| PathStr (p : string)
| PathList (ps : list string).

(** The values [fetch_mcmurray_facies] can bind to [data] or return. *)
Inductive PyVal : Type :=
| VStr (s : string)
| VStrList (l : list string)
| VTable (d : DataFrame).

Definition of_fname (f : Fname) : PyVal :=
  match f with
  | PathStr p => VStr p
  | PathList ps => VStrList ps
  end.

(** The object passed as [columns=] to [rename]: a list of labels or a
    mapping from old label to new label. *)
Inductive ColumnsArg : Type :=
| ArgList (labels : list string)
| ArgDict (mapping : list (string * string)).

Inductive Processor : Type :=
| Unzip.

(** ** The log of effects *)

Inductive Event : Type :=
| EFetch (name : string) (processor : Processor)
| EReadCsv (path : string) (engine : option string)
| ERename (cols : ColumnsArg)
| EPrint (line : string).

Definition is_read_csv (ev : Event) : bool :=
  match ev with
  | EReadCsv _ _ => true
  | _ => false
  end.

Definition is_rename (ev : Event) : bool :=
  match ev with
  | ERename _ => true
  | _ => false
  end.

(** The calls to [pd.read_csv] in a log, in order. *)
Definition read_csv_calls (log : list Event) : list Event :=
  filter is_read_csv log.

Definition rename_calls (log : list Event) : list Event :=
  filter is_rename log.

(** ** A monad for exceptions and the log *)

Definition M (A : Type) : Type := list Event -> Result A * list Event.

Definition ret {A} (a : A) : M A := fun log => (Returns a, log).

Definition raise {A} (e : PyExc) : M A := fun log => (Raises e, log).

Definition bind {A B} (m : M A) (k : A -> M B) : M B :=
  fun log =>
    match m log with
    | (Returns a, log') => k a log'
    | (Raises e, log') => (Raises e, log')
    end.

Definition lift {A} (r : Result A) : M A := fun log => (r, log).

Definition emit (ev : Event) : M unit := fun log => (Returns tt, (log ++ [ev])%list).

(** [try: body / except <catches>: handler]. *)
Definition try_except {A} (body : M A) (catches : PyExc -> bool)
    (handler : M A) : M A :=
  fun log =>
    match body log with
    | (Returns a, log') => (Returns a, log')
    | (Raises e, log') =>
        if catches e then handler log' else (Raises e, log')
    end.

Declare Scope py_scope.
Delimit Scope py_scope with py.
Notation "x <- m ;; k" := (bind m (fun x => k))
  (at level 61, m at next level, right associativity) : py_scope.
Notation "m ;; k" := (bind m (fun _ => k))
  (at level 61, right associativity) : py_scope.
Open Scope py_scope.

(** ** Built-ins *)

(** [fname[0]]: the first element of a list, the first character of a
    string, [IndexError] when there is none. *)
Definition getitem0 (f : Fname) : Result string :=
  match f with
  | PathList (p :: _) => Returns p
  | PathList [] => Raises IndexError
  | PathStr (String c _) => Returns (String c EmptyString)
  | PathStr EmptyString => Raises IndexError
  end.

(** [str(x)] of a string is the string. *)
Definition str (s : string) : string := s.

Definition print (v : string) : M unit := emit (EPrint v).

(** ** The constants of the module *)

Definition spelled_out_columns : list string :=
  ["Unnamed: 0"; "CALI=Caliper"; "COND=Fluid Conductivity";
   "DELT=Travel Time Interval between Successive Shots";
   "DEPT=Depth"; "DPHI=Density Porosity";
   "DT=Delta-T also called Slowness or Interval Transit Time";
   "GR=Gamma Ray"; "ILD=Induction Deep Resistivity";
   "ILM=Induction Medium Resistivity";
   "NPHI=Thermal Neutron Porosity (original Ratio Method) in Selected Lithology";
   "PHID=Porosity-LDT NGT Tools"; "RHOB=Bulk Density";
   "SFL=Spherically Focused Log Resitivity";
   "SFLU=SFL Resistivity Unaveraged";
   "SN=Short Normal Resistivity (16 inch spacing)";
   "SP=Spontaneous Potential"; "UWI=Unique Well Identifier";
   "SitID=Site Identification Number";
   "lat=latitude"; "lng=longitude"; "Depth=Depth";
   "LithID=Lithology Identity Number";
   "W_Tar=Weight Percent Tar"; "SW=Water Saturation"; "VSH=Volume of Shale";
   "PHI=Porosity";
   "RW=Connate Water Resistivity"; "lithName=Lithology Name"].

Definition abbreviated_columns : list string :=
  ["Unnamed: 0"; "CALI"; "COND"; "DELT"; "DEPT"; "DPHI"; "DT"; "GR";
   "ILD"; "ILM"; "NPHI"; "PHID"; "RHOB"; "SFL"; "SFLU"; "SN"; "SP"; "UWI";
   "SitID"; "lat"; "lng"; "Depth"; "LithID"; "W_Tar"; "SW"; "VSH"; "PHI";
   "RW"; "lithName"].

Definition archive_name : string := "mcmurray_facies_v1.tar.gz".

Definition csv_relative_path : string :=
  "mcmurray_facies_v1/mcmurray_facies_v1.csv".

(** The string bound to [data] when both reads fail.  The literal is broken
    by a backslash at the end of the line, so the indentation of the
    continuation line (17 blanks) is part of the string. *)
Definition could_not_read : string :=
  "could not read hdf as the conversion of fname to a stringified version "
  ++ "                 didn't work well. Oops.".

(** ** The collaborators *)

Record Collaborators : Type := mkCollaborators {
  (** [REGISTRY.fetch(name, processor=...)] *)
  REGISTRY_fetch : string -> Processor -> Result Fname;
  (** [pd.read_csv(path, engine=...)], [None] for the default engine *)
  pd_read_csv : string -> option string -> Result DataFrame;
  (** [DataFrame.rename(columns=...)]; [inplace] is left at its default, so
      the call yields a frame of its own and the receiver stays as it is *)
  DataFrame_rename : DataFrame -> ColumnsArg -> Result DataFrame
}.

(** ** The function *)

Section Loader.

Context (env : Collaborators).

Definition fetch (name : string) (processor : Processor) : M Fname :=
  emit (EFetch name processor) ;;
  lift (REGISTRY_fetch env name processor).

Definition read_csv (path : string) (engine : option string) : M DataFrame :=
  emit (EReadCsv path engine) ;;
  lift (pd_read_csv env path engine).

(** [data.rename(columns=cols)]: a frame has the method, a string or a
    list has no such attribute. *)
Definition rename (data : PyVal) (cols : ColumnsArg) : M DataFrame :=
  match data with
  | VTable d => emit (ERename cols) ;; lift (DataFrame_rename env d cols)
  | VStr _ => raise AttributeError
  | VStrList _ => raise AttributeError
  end.

(** The [try]/[except] block that binds [data]. *)
Definition load_data (fname : Fname) : M PyVal :=
  try_except
    (d <- read_csv csv_relative_path (Some "python") ;;
     ret (VTable d))
    is_NotImplementedError
    (try_except
       (first <- lift (getitem0 fname) ;;
        d <- read_csv (str first) None ;;
        ret (VTable d))
       is_NotImplementedError
       (let data := could_not_read in
        print data ;;
        ret (VStr data))).

(** The [if abbreviations_only] block: the value of either call to
    [rename] is dropped. *)
Definition rename_step (abbreviations_only : bool) (data : PyVal) : M unit :=
  if abbreviations_only
  then (_ <- rename data (ArgList abbreviated_columns) ;; ret tt)
  else (_ <- rename data (ArgList spelled_out_columns) ;; ret tt).

Definition fetch_mcmurray_facies (abbreviations_only load : bool) : M PyVal :=
  fname <- fetch archive_name Unzip ;;
  if negb load then ret (of_fname fname)
  else
    data <- load_data fname ;;
    rename_step abbreviations_only data ;;
    ret data.

End Loader.

(** The object the rename step passes as [columns=]: one of the two lists,
    as it is. *)
Definition rename_argument (ab : bool) : ColumnsArg :=
  ArgList (if ab then abbreviated_columns else spelled_out_columns).

(** ** The renaming the documentation describes

    These two definitions follow the words of the specification (behaviour,
    step 6) and of the docstring, not the code: a mapping from old label to
    new label built by position from the two lists, applied to the labels it
    knows.  They are here to be compared with [rename_step]. *)

Definition column_mapping_spec : list (string * string) :=
  combine abbreviated_columns spelled_out_columns.

Fixpoint lookup_label (m : list (string * string)) (c : string) : option string :=
  match m with
  | [] => None
  | (old, new) :: m' => if String.eqb old c then Some new else lookup_label m' c
  end.

Definition rename_label (m : list (string * string)) (c : string) : string :=
  match lookup_label m c with
  | Some new => new
  | None => c
  end.

Definition rename_columns_spec (abbreviations_only : bool) (d : DataFrame)
    : DataFrame :=
  if abbreviations_only then d
  else mkDataFrame (map (rename_label column_mapping_spec) (columns d)) (rows d).

(** ** Named and unnamed columns *)




(** ** Collaborators to run the function with *)

Module Scenario.

Definition extracted_csv : string :=
  "/home/user/.cache/rockhound/mcmurray_facies_v1.tar.gz.unzip/mcmurray_facies_v1.csv".

Definition facies_table : DataFrame :=
  mkDataFrame abbreviated_columns
    [map (fun _ => "0") abbreviated_columns;
     map (fun _ => "1") abbreviated_columns].

(** The registry answers with the list of the extracted files. *)
Definition registry_ok (name : string) (p : Processor) : Result Fname :=
  Returns (PathList [extracted_csv]).

(** The registry answers with one path. *)
Definition registry_one_path (name : string) (p : Processor) : Result Fname :=
  Returns (PathStr extracted_csv).

(** The download fails. *)
Definition registry_down (name : string) (p : Processor) : Result Fname :=
  Raises (OtherError "HTTPError").

(** The CSV is where the relative path says. *)
Definition csv_present (path : string) (engine : option string)
    : Result DataFrame :=
  if String.eqb path csv_relative_path then Returns facies_table
  else Raises (OtherError "FileNotFoundError").

(** The reader supports neither call. *)
Definition csv_unsupported (path : string) (engine : option string)
    : Result DataFrame :=
  Raises NotImplementedError.

(** The reader supports only the call on the extracted file. *)
Definition csv_fallback (path : string) (engine : option string)
    : Result DataFrame :=
  if String.eqb path extracted_csv then Returns facies_table
  else Raises NotImplementedError.

(** The file is there and cannot be parsed. *)
Definition csv_malformed (path : string) (engine : option string)
    : Result DataFrame :=
  Raises (OtherError "ParserError").

(** The first call is not supported, the second cannot parse. *)
Definition csv_fallback_malformed (path : string) (engine : option string)
    : Result DataFrame :=
  if String.eqb path csv_relative_path then Raises NotImplementedError
  else Raises (OtherError "ParserError").

(** A [rename] that is as helpful as can be: given a list it takes it as
    the new header, given a mapping it applies it. *)
Definition relabel (d : DataFrame) (cols : ColumnsArg) : Result DataFrame :=
  match cols with
  | ArgList labels => Returns (mkDataFrame labels (rows d))
  | ArgDict m => Returns (mkDataFrame (map (rename_label m) (columns d)) (rows d))
  end.

(** A [rename] that takes mappings only and rejects a list. *)
Definition rename_mapping_only (d : DataFrame) (cols : ColumnsArg)
    : Result DataFrame :=
  match cols with
  | ArgList _ => Raises (OtherError "TypeError")
  | ArgDict m => Returns (mkDataFrame (map (rename_label m) (columns d)) (rows d))
  end.

Definition single_path : Collaborators :=
  mkCollaborators registry_one_path csv_unsupported relabel.

Definition dataset : Collaborators :=
  mkCollaborators registry_ok csv_present relabel.

Definition unsupported : Collaborators :=
  mkCollaborators registry_ok csv_unsupported relabel.

Definition offline : Collaborators :=
  mkCollaborators registry_down csv_present relabel.

Definition fallback : Collaborators :=
  mkCollaborators registry_ok csv_fallback relabel.

Definition malformed : Collaborators :=
  mkCollaborators registry_ok csv_malformed relabel.

Definition fallback_malformed : Collaborators :=
  mkCollaborators registry_ok csv_fallback_malformed relabel.

End Scenario.

(** ** Further views of the log and further collaborators *)

(** The events of a log that are not calls to [rename]. *)
Definition other_events (log : list Event) : list Event :=
  filter (fun ev => negb (is_rename ev)) log.

Module EdgeScenario.

(** The processor extracted nothing: the registry answers with an empty
    list. *)
Definition registry_empty (name : string) (p : Processor) : Result Fname :=
  Returns (PathList []).

(** A [rename] that is not supported at all. *)
Definition rename_unsupported (d : DataFrame) (cols : ColumnsArg)
    : Result DataFrame :=
  Raises NotImplementedError.

Definition nothing_extracted : Collaborators :=
  mkCollaborators registry_empty Scenario.csv_unsupported Scenario.relabel.

Definition rename_fails : Collaborators :=
  mkCollaborators Scenario.registry_ok Scenario.csv_present rename_unsupported.

(** The processor extracted two files: the CSV, then a note beside it. *)
Definition extracted_note : string :=
  "/home/user/.cache/rockhound/mcmurray_facies_v1.tar.gz.unzip/README.txt".

Definition registry_two_files (name : string) (p : Processor) : Result Fname :=
  Returns (PathList [Scenario.extracted_csv; extracted_note]).

Definition two_files : Collaborators :=
  mkCollaborators registry_two_files Scenario.csv_fallback Scenario.relabel.




End EdgeScenario.

(** * Properties *)

(** ** Equations of the function *)

Section LoaderEquations.

Context (env : Collaborators).

Lemma fetch_raises (ab load : bool) (e : PyExc) :
  REGISTRY_fetch env archive_name Unzip = Raises e ->
  fetch_mcmurray_facies env ab load [] = (Raises e, [EFetch archive_name Unzip]).
Proof.
  intros F. unfold fetch_mcmurray_facies, fetch, bind, emit, lift. simpl.
  rewrite F. reflexivity.
Qed.

Lemma fetch_load_false (ab : bool) (fname : Fname) :
  REGISTRY_fetch env archive_name Unzip = Returns fname ->
  fetch_mcmurray_facies env ab false [] =
    (Returns (of_fname fname), [EFetch archive_name Unzip]).
Proof.
  intros F. unfold fetch_mcmurray_facies, fetch, bind, emit, lift. simpl.
  rewrite F. reflexivity.
Qed.

Lemma fetch_load_true (ab : bool) (fname : Fname) :
  REGISTRY_fetch env archive_name Unzip = Returns fname ->
  fetch_mcmurray_facies env ab true [] =
    match load_data env fname [EFetch archive_name Unzip] with
    | (Returns data, log) =>
        match rename_step env ab data log with
        | (Returns _, log') => (Returns data, log')
        | (Raises e, log') => (Raises e, log')
        end
    | (Raises e, log) => (Raises e, log)
    end.
Proof.
  intros F. unfold fetch_mcmurray_facies, fetch, bind, emit, lift. simpl.
  rewrite F. simpl.
  destruct (load_data env fname [EFetch archive_name Unzip]) as [[data|e] log];
    reflexivity.
Qed.

Lemma rename_step_table (ab : bool) (d : DataFrame) (log : list Event) :
  rename_step env ab (VTable d) log =
    match DataFrame_rename env d (rename_argument ab) with
    | Returns _ => (Returns tt, (log ++ [ERename (rename_argument ab)])%list)
    | Raises e => (Raises e, (log ++ [ERename (rename_argument ab)])%list)
    end.
Proof.
  unfold rename_step, rename, rename_argument, bind, emit, lift, ret.
  destruct ab; simpl;
    match goal with |- context [DataFrame_rename env d ?c] =>
      destruct (DataFrame_rename env d c) end; reflexivity.
Qed.

Lemma rename_step_str (ab : bool) (s : string) (log : list Event) :
  rename_step env ab (VStr s) log = (Raises AttributeError, log).
Proof. destruct ab; reflexivity. Qed.

Lemma rename_step_list (ab : bool) (l : list string) (log : list Event) :
  rename_step env ab (VStrList l) log = (Raises AttributeError, log).
Proof. destruct ab; reflexivity. Qed.

(** The first read succeeds. *)
Lemma load_data_first (fname : Fname) (d : DataFrame) (log : list Event) :
  pd_read_csv env csv_relative_path (Some "python") = Returns d ->
  load_data env fname log =
    (Returns (VTable d),
     (log ++ [EReadCsv csv_relative_path (Some "python")])%list).
Proof.
  intros R. unfold load_data, try_except, read_csv, bind, emit, lift, ret.
  simpl. rewrite R. reflexivity.
Qed.

(** The first read raises something the handler does not catch. *)
Lemma load_data_first_raises (fname : Fname) (e : PyExc) (log : list Event) :
  pd_read_csv env csv_relative_path (Some "python") = Raises e ->
  is_NotImplementedError e = false ->
  load_data env fname log =
    (Raises e, (log ++ [EReadCsv csv_relative_path (Some "python")])%list).
Proof.
  intros R N. unfold load_data, try_except, read_csv, bind, emit, lift, ret.
  simpl. rewrite R. simpl. rewrite N. reflexivity.
Qed.

(** The first read is not supported and [fname[0]] fails. *)
Lemma load_data_no_first_element (fname : Fname) (e : PyExc) (log : list Event) :
  pd_read_csv env csv_relative_path (Some "python") = Raises NotImplementedError ->
  getitem0 fname = Raises e ->
  load_data env fname log =
    (Raises IndexError,
     (log ++ [EReadCsv csv_relative_path (Some "python")])%list).
Proof.
  intros R G. unfold load_data, try_except, read_csv, bind, emit, lift, ret.
  simpl. rewrite R. simpl.
  destruct fname as [[|c p]|[|p ps]]; simpl in G; try discriminate;
    reflexivity.
Qed.

(** The first read is not supported and the second is made. *)
Lemma load_data_second (fname : Fname) (first : string) (log : list Event) :
  pd_read_csv env csv_relative_path (Some "python") = Raises NotImplementedError ->
  getitem0 fname = Returns first ->
  load_data env fname log =
    match pd_read_csv env (str first) None with
    | Returns d =>
        (Returns (VTable d),
         (log ++ [EReadCsv csv_relative_path (Some "python")]
              ++ [EReadCsv (str first) None])%list)
    | Raises e =>
        if is_NotImplementedError e
        then (Returns (VStr could_not_read),
              (log ++ [EReadCsv csv_relative_path (Some "python")]
                   ++ [EReadCsv (str first) None]
                   ++ [EPrint could_not_read])%list)
        else (Raises e,
              (log ++ [EReadCsv csv_relative_path (Some "python")]
                   ++ [EReadCsv (str first) None])%list)
    end.
Proof.
  intros R G. unfold load_data, try_except, read_csv, print, bind, emit, lift, ret.
  simpl. rewrite R. simpl. rewrite G. simpl.
  destruct (pd_read_csv env (str first) None) as [d|e]; simpl.
  - now rewrite <- !app_assoc.
  - destruct (is_NotImplementedError e); simpl; now rewrite <- !app_assoc.
Qed.

(** Whatever [load_data] binds to [data], a value the function returns is
    that value: the rename step hands nothing back. *)
Lemma returned_value_is_loaded_data (ab : bool) (fname : Fname) (v : PyVal)
    (log : list Event) :
  REGISTRY_fetch env archive_name Unzip = Returns fname ->
  fetch_mcmurray_facies env ab true [] = (Returns v, log) ->
  fst (load_data env fname [EFetch archive_name Unzip]) = Returns v.
Proof.
  intros F H. rewrite (fetch_load_true ab fname F) in H.
  destruct (load_data env fname [EFetch archive_name Unzip]) as [[data|e] l];
    [|discriminate].
  destruct (rename_step env ab data l) as [[u|e] l']; [|discriminate].
  inversion H; reflexivity.
Qed.

Lemma returns_only_after_fetch (ab load : bool) (v : PyVal) (log : list Event) :
  fetch_mcmurray_facies env ab load [] = (Returns v, log) ->
  exists fname, REGISTRY_fetch env archive_name Unzip = Returns fname.
Proof.
  intros H. destruct (REGISTRY_fetch env archive_name Unzip) as [f|e] eqn:F.
  - now exists f.
  - rewrite (fetch_raises ab load e F) in H. discriminate.
Qed.

End LoaderEquations.

(** ** The two lists of column names *)

(** C5: the two lists have the same length, and at every position the
    spelled-out entry is the renamed form of the abbreviated entry: at
    position 0 both are the index column [Unnamed: 0], at every other
    position the spelled-out entry is the abbreviated code, then [=], then a
    text that is not empty. *)
Theorem column_lists_correspond_positionally :
  length abbreviated_columns = length spelled_out_columns /\
  forall (N : nat) (abbr spelled : string),
    nth_error abbreviated_columns N = Some abbr ->
    nth_error spelled_out_columns N = Some spelled ->
    (N = 0 /\ abbr = "Unnamed: 0" /\ spelled = abbr) \/
    (N <> 0 /\ exists text, spelled = abbr ++ "=" ++ text /\ text <> "").
Proof.
  split; [reflexivity|].
  intros N abbr spelled.
  do 29 (destruct N as [|N];
         [ simpl; intros A S; inversion A; inversion S; subst;
           first [ left; repeat split; reflexivity
                 | right; split; [discriminate|];
                   eexists; split; [reflexivity | discriminate] ]
         | ]).
  destruct N; discriminate.
Qed.

Lemma column_lists_correspond_positionally_witness :
  (7 = 0 /\ "GR" = "Unnamed: 0" /\ "GR=Gamma Ray" = "GR") \/
  (7 <> 0 /\ exists text, "GR=Gamma Ray" = "GR" ++ "=" ++ text /\ text <> "").
Proof.
  exact (proj2 column_lists_correspond_positionally 7 "GR" "GR=Gamma Ray"
           eq_refl eq_refl).
Defined.




(** ** Control flow *)

(** C4: whatever [abbreviations_only] is, with [load] false the function
    returns what the registry returned, in the shape it came, and makes no
    call to [pd.read_csv]. *)
Theorem load_false_returns_fetch_result :
  forall (env : Collaborators) (abbreviations_only : bool) (fname : Fname),
    REGISTRY_fetch env archive_name Unzip = Returns fname ->
    fst (fetch_mcmurray_facies env abbreviations_only false []) =
      Returns (of_fname fname) /\
    read_csv_calls (snd (fetch_mcmurray_facies env abbreviations_only false [])) = [].
Proof.
  intros env ab fname F. rewrite (fetch_load_false env ab fname F).
  split; reflexivity.
Qed.

Lemma load_false_returns_fetch_result_witness :
  fst (fetch_mcmurray_facies Scenario.dataset false false []) =
    Returns (VStrList [Scenario.extracted_csv]) /\
  read_csv_calls (snd (fetch_mcmurray_facies Scenario.dataset false false [])) = [].
Proof.
  exact (load_false_returns_fetch_result Scenario.dataset false
           (PathList [Scenario.extracted_csv]) eq_refl).
Defined.

(** C6: with [load] true the first call to [pd.read_csv] is on the relative
    path [mcmurray_facies_v1/mcmurray_facies_v1.csv] with the python engine.
    A further call is made only if that one raised [NotImplementedError],
    and it is on the first element of the fetch result: the first path [p]
    of a list [p :: ps], the first character of a single path.  And when the
    first call raised [NotImplementedError], that second call is made: on
    [p] for the list [p :: ps], on the first character for a single path. *)
Theorem read_attempts_in_order :
  forall (env : Collaborators) (abbreviations_only : bool) (fname : Fname),
    REGISTRY_fetch env archive_name Unzip = Returns fname ->
    let calls :=
      read_csv_calls (snd (fetch_mcmurray_facies env abbreviations_only true [])) in
    hd_error calls = Some (EReadCsv csv_relative_path (Some "python")) /\
    (forall ev, In ev (tl calls) ->
        pd_read_csv env csv_relative_path (Some "python") =
          Raises NotImplementedError /\
        ((exists p ps, fname = PathList (p :: ps) /\ ev = EReadCsv p None) \/
         (exists c rest, fname = PathStr (String c rest) /\
                         ev = EReadCsv (String c EmptyString) None))) /\
    (forall p ps,
        fname = PathList (p :: ps) ->
        pd_read_csv env csv_relative_path (Some "python") =
          Raises NotImplementedError ->
        calls = [EReadCsv csv_relative_path (Some "python");
                 EReadCsv p None]) /\
    (forall c rest,
        fname = PathStr (String c rest) ->
        pd_read_csv env csv_relative_path (Some "python") =
          Raises NotImplementedError ->
        calls = [EReadCsv csv_relative_path (Some "python");
                 EReadCsv (String c EmptyString) None]).
Proof.
  intros env ab fname F calls. subst calls.
  rewrite (fetch_load_true env ab fname F).
  destruct (pd_read_csv env csv_relative_path (Some "python")) as [d|e] eqn:R1.
  - rewrite (load_data_first env fname d _ R1), rename_step_table.
    destruct (DataFrame_rename env d (rename_argument ab)); simpl;
      (split; [reflexivity|]; split; [intros ev []|];
       split; intros; discriminate).
  - destruct (is_NotImplementedError e) eqn:N.
    + destruct e; try discriminate.
      destruct fname as [[|c rest]|[|p ps]].
      * rewrite (load_data_no_first_element env (PathStr EmptyString)
                   IndexError _ R1 eq_refl).
        simpl. split; [reflexivity|]. split; [intros ev []|].
        split; intros; discriminate.
      * rewrite (load_data_second env (PathStr (String c rest))
                   (String c EmptyString) _ R1 eq_refl).
        unfold str.
        assert (Hev : forall ev,
                   In ev [EReadCsv (String c EmptyString) None] ->
                   Raises (A:=DataFrame) NotImplementedError =
                     Raises NotImplementedError /\
                   ((exists p ps,
                        PathStr (String c rest) = PathList (p :: ps) /\
                        ev = EReadCsv p None) \/
                    (exists c0 rest0,
                        PathStr (String c rest) = PathStr (String c0 rest0) /\
                        ev = EReadCsv (String c0 EmptyString) None))).
        { intros ev [<-|[]]. split; [reflexivity|]. right.
          exists c, rest. split; reflexivity. }
        assert (Hlist : forall p ps,
                   PathStr (String c rest) = PathList (p :: ps) ->
                   Raises (A:=DataFrame) NotImplementedError =
                     Raises NotImplementedError ->
                   [EReadCsv csv_relative_path (Some "python");
                    EReadCsv (String c EmptyString) None] =
                   [EReadCsv csv_relative_path (Some "python");
                    EReadCsv p None])
          by (intros; discriminate).
        assert (Hstr : forall c0 rest0,
                   PathStr (String c rest) = PathStr (String c0 rest0) ->
                   Raises (A:=DataFrame) NotImplementedError =
                     Raises NotImplementedError ->
                   [EReadCsv csv_relative_path (Some "python");
                    EReadCsv (String c EmptyString) None] =
                   [EReadCsv csv_relative_path (Some "python");
                    EReadCsv (String c0 EmptyString) None])
          by (intros c0 rest0 E _; inversion E; reflexivity).
        destruct (pd_read_csv env (String c EmptyString) None) as [d|e2].
        -- rewrite rename_step_table.
           destruct (DataFrame_rename env d (rename_argument ab)); simpl;
             (split; [reflexivity|]; split; [exact Hev|];
              split; [exact Hlist|exact Hstr]).
        -- destruct (is_NotImplementedError e2).
           ++ rewrite rename_step_str. simpl.
              split; [reflexivity|]. split; [exact Hev|].
              split; [exact Hlist|exact Hstr].
           ++ simpl. split; [reflexivity|]. split; [exact Hev|].
              split; [exact Hlist|exact Hstr].
      * rewrite (load_data_no_first_element env (PathList [])
                   IndexError _ R1 eq_refl).
        simpl. split; [reflexivity|]. split; [intros ev []|].
        split; intros; discriminate.
      * rewrite (load_data_second env (PathList (p :: ps)) p _ R1 eq_refl).
        unfold str.
        assert (Hev : forall ev,
                   In ev [EReadCsv p None] ->
                   Raises (A:=DataFrame) NotImplementedError =
                     Raises NotImplementedError /\
                   ((exists p0 ps0,
                        PathList (p :: ps) = PathList (p0 :: ps0) /\
                        ev = EReadCsv p0 None) \/
                    (exists c rest,
                        PathList (p :: ps) = PathStr (String c rest) /\
                        ev = EReadCsv (String c EmptyString) None))).
        { intros ev [<-|[]]. split; [reflexivity|]. left.
          exists p, ps. split; reflexivity. }
        assert (Hlist : forall p0 ps0,
                   PathList (p :: ps) = PathList (p0 :: ps0) ->
                   Raises (A:=DataFrame) NotImplementedError =
                     Raises NotImplementedError ->
                   [EReadCsv csv_relative_path (Some "python");
                    EReadCsv p None] =
                   [EReadCsv csv_relative_path (Some "python");
                    EReadCsv p0 None])
          by (intros p0 ps0 E _; inversion E; reflexivity).
        assert (Hstr : forall c rest,
                   PathList (p :: ps) = PathStr (String c rest) ->
                   Raises (A:=DataFrame) NotImplementedError =
                     Raises NotImplementedError ->
                   [EReadCsv csv_relative_path (Some "python");
                    EReadCsv p None] =
                   [EReadCsv csv_relative_path (Some "python");
                    EReadCsv (String c EmptyString) None])
          by (intros; discriminate).
        destruct (pd_read_csv env p None) as [d|e2].
        -- rewrite rename_step_table.
           destruct (DataFrame_rename env d (rename_argument ab)); simpl;
             (split; [reflexivity|]; split; [exact Hev|];
              split; [exact Hlist|exact Hstr]).
        -- destruct (is_NotImplementedError e2).
           ++ rewrite rename_step_str. simpl.
              split; [reflexivity|]. split; [exact Hev|].
              split; [exact Hlist|exact Hstr].
           ++ simpl. split; [reflexivity|]. split; [exact Hev|].
              split; [exact Hlist|exact Hstr].
    + rewrite (load_data_first_raises env fname e _ R1 N). simpl.
      split; [reflexivity|]. split; [intros ev []|].
      split; intros ? ? ? E; inversion E; subst; discriminate.
Qed.

(** The registry returned two paths and the reader supports only the call
    on the extracted file: the second read is on the first of the two. *)
Lemma read_attempts_in_order_witness :
  let calls :=
    read_csv_calls (snd (fetch_mcmurray_facies EdgeScenario.two_files true true [])) in
  hd_error calls = Some (EReadCsv csv_relative_path (Some "python")) /\
  (pd_read_csv EdgeScenario.two_files csv_relative_path (Some "python") =
     Raises NotImplementedError /\
   ((exists p ps,
       PathList [Scenario.extracted_csv; EdgeScenario.extracted_note] =
         PathList (p :: ps) /\
       EReadCsv Scenario.extracted_csv None = EReadCsv p None) \/
    (exists c rest,
       PathList [Scenario.extracted_csv; EdgeScenario.extracted_note] =
         PathStr (String c rest) /\
       EReadCsv Scenario.extracted_csv None =
         EReadCsv (String c EmptyString) None))) /\
  calls = [EReadCsv csv_relative_path (Some "python");
           EReadCsv Scenario.extracted_csv None] /\
  read_csv_calls (snd (fetch_mcmurray_facies Scenario.single_path true true [])) =
    [EReadCsv csv_relative_path (Some "python"); EReadCsv "/" None].
Proof.
  pose proof (read_attempts_in_order EdgeScenario.two_files true
                (PathList [Scenario.extracted_csv; EdgeScenario.extracted_note])
                eq_refl) as (H1 & H2 & H3 & _).
  pose proof (read_attempts_in_order Scenario.single_path true
                (PathStr Scenario.extracted_csv) eq_refl) as (_ & _ & _ & H4).
  split; [exact H1|]. split; [|split].
  - apply (H2 (EReadCsv Scenario.extracted_csv None)). simpl. left. reflexivity.
  - exact (H3 Scenario.extracted_csv [EdgeScenario.extracted_note]
             eq_refl eq_refl).
  - exact (H4 _ _ eq_refl eq_refl).
Defined.

(** C7: the handlers catch [NotImplementedError] raised by a read and
    nothing else.  An exception raised by the fetch escapes, for either
    value of [load]; an exception other than [NotImplementedError] raised by
    the first read escapes; and so does one raised by the second read. *)
Theorem only_not_implemented_is_caught :
  forall (env : Collaborators) (abbreviations_only : bool),
    (forall load e,
        REGISTRY_fetch env archive_name Unzip = Raises e ->
        fst (fetch_mcmurray_facies env abbreviations_only load []) = Raises e) /\
    (forall fname e,
        REGISTRY_fetch env archive_name Unzip = Returns fname ->
        pd_read_csv env csv_relative_path (Some "python") = Raises e ->
        e <> NotImplementedError ->
        fst (fetch_mcmurray_facies env abbreviations_only true []) = Raises e) /\
    (forall fname first e,
        REGISTRY_fetch env archive_name Unzip = Returns fname ->
        pd_read_csv env csv_relative_path (Some "python") =
          Raises NotImplementedError ->
        getitem0 fname = Returns first ->
        pd_read_csv env (str first) None = Raises e ->
        e <> NotImplementedError ->
        fst (fetch_mcmurray_facies env abbreviations_only true []) = Raises e).
Proof.
  intros env ab. repeat split.
  - intros load e F. now rewrite (fetch_raises env ab load e F).
  - intros fname e F R1 N.
    assert (N' : is_NotImplementedError e = false)
      by (destruct e; try reflexivity; now elim N).
    rewrite (fetch_load_true env ab fname F).
    now rewrite (load_data_first_raises env fname e _ R1 N').
  - intros fname first e F R1 G R2 N.
    assert (N' : is_NotImplementedError e = false)
      by (destruct e; try reflexivity; now elim N).
    rewrite (fetch_load_true env ab fname F).
    rewrite (load_data_second env fname first _ R1 G), R2, N'. reflexivity.
Qed.

Lemma only_not_implemented_is_caught_witness :
  fst (fetch_mcmurray_facies Scenario.offline true true []) =
    Raises (OtherError "HTTPError") /\
  fst (fetch_mcmurray_facies Scenario.offline true false []) =
    Raises (OtherError "HTTPError") /\
  fst (fetch_mcmurray_facies Scenario.malformed true true []) =
    Raises (OtherError "ParserError") /\
  fst (fetch_mcmurray_facies Scenario.fallback_malformed true true []) =
    Raises (OtherError "ParserError").
Proof.
  split; [|split; [|split]].
  - exact (proj1 (only_not_implemented_is_caught Scenario.offline true)
             true (OtherError "HTTPError") eq_refl).
  - exact (proj1 (only_not_implemented_is_caught Scenario.offline true)
             false (OtherError "HTTPError") eq_refl).
  - refine (proj1 (proj2 (only_not_implemented_is_caught Scenario.malformed true))
              (PathList [Scenario.extracted_csv]) (OtherError "ParserError")
              eq_refl eq_refl _).
    discriminate.
  - refine (proj2 (proj2 (only_not_implemented_is_caught
                            Scenario.fallback_malformed true))
              (PathList [Scenario.extracted_csv]) Scenario.extracted_csv
              (OtherError "ParserError") eq_refl eq_refl eq_refl eq_refl _).
    discriminate.
Defined.

(** ** The rename step *)

(** C9: when the table [t] is what enters the rename step, a value the
    function returns is a table with as many columns as [t], for either
    value of [abbreviations_only]. *)
Theorem rename_step_preserves_column_count :
  forall (env : Collaborators) (abbreviations_only : bool) (fname : Fname)
         (t : DataFrame) (log1 : list Event) (v : PyVal) (log2 : list Event),
    REGISTRY_fetch env archive_name Unzip = Returns fname ->
    load_data env fname [EFetch archive_name Unzip] = (Returns (VTable t), log1) ->
    fetch_mcmurray_facies env abbreviations_only true [] = (Returns v, log2) ->
    exists t', v = VTable t' /\ length (columns t') = length (columns t).
Proof.
  intros env ab fname t log1 v log2 F L H.
  pose proof (returned_value_is_loaded_data env ab fname v log2 F H) as E.
  rewrite L in E. simpl in E. inversion E; subst.
  exists t. split; reflexivity.
Qed.

Lemma rename_step_preserves_column_count_witness :
  exists t', VTable Scenario.facies_table = VTable t' /\
             length (columns t') = length (columns Scenario.facies_table).
Proof.
  exact (rename_step_preserves_column_count Scenario.dataset false
           (PathList [Scenario.extracted_csv]) Scenario.facies_table
           _ (VTable Scenario.facies_table) _ eq_refl eq_refl eq_refl).
Defined.

(** C10: with [load] true and the same collaborators, the value returned
    with [abbreviations_only] true and the value returned with it false are
    the same value, the one bound to [data] before the rename step. *)
Theorem abbreviations_only_does_not_change_returned_value :
  forall (env : Collaborators) (v1 v2 : PyVal) (log1 log2 : list Event),
    fetch_mcmurray_facies env true true [] = (Returns v1, log1) ->
    fetch_mcmurray_facies env false true [] = (Returns v2, log2) ->
    v1 = v2 /\
    exists fname,
      REGISTRY_fetch env archive_name Unzip = Returns fname /\
      fst (load_data env fname [EFetch archive_name Unzip]) = Returns v1.
Proof.
  intros env v1 v2 log1 log2 H1 H2.
  destruct (returns_only_after_fetch env true true v1 log1 H1) as [fname F].
  pose proof (returned_value_is_loaded_data env true fname v1 log1 F H1) as E1.
  pose proof (returned_value_is_loaded_data env false fname v2 log2 F H2) as E2.
  split.
  - rewrite E1 in E2. now inversion E2.
  - now exists fname.
Qed.

Lemma abbreviations_only_does_not_change_returned_value_witness :
  VTable Scenario.facies_table = VTable Scenario.facies_table /\
  exists fname,
    REGISTRY_fetch Scenario.dataset archive_name Unzip = Returns fname /\
    fst (load_data Scenario.dataset fname [EFetch archive_name Unzip]) =
      Returns (VTable Scenario.facies_table).
Proof.
  exact (abbreviations_only_does_not_change_returned_value Scenario.dataset
           (VTable Scenario.facies_table) (VTable Scenario.facies_table)
           _ _ eq_refl eq_refl).
Defined.

(** C1, evaluated on the code: the CSV holds the abbreviated header, the
    call is made with [abbreviations_only] false and [load] true.  Whatever
    [rename] does with its argument, a value the function returns is the
    table as it was read: its column is still [GR], there is no column
    [GR=Gamma Ray], and it is not the table the documented renaming gives. *)
Theorem spelled_out_names_are_not_returned :
  forall (rename_impl : DataFrame -> ColumnsArg -> Result DataFrame)
         (v : PyVal) (log : list Event),
    fetch_mcmurray_facies
      (mkCollaborators Scenario.registry_ok Scenario.csv_present rename_impl)
      false true [] = (Returns v, log) ->
    v = VTable Scenario.facies_table /\
    In "GR" (columns Scenario.facies_table) /\
    ~ In "GR=Gamma Ray" (columns Scenario.facies_table) /\
    v <> VTable (rename_columns_spec false Scenario.facies_table).
Proof.
  intros rename_impl v log H.
  assert (E : v = VTable Scenario.facies_table).
  { pose proof (returned_value_is_loaded_data
                  (mkCollaborators Scenario.registry_ok Scenario.csv_present
                     rename_impl)
                  false (PathList [Scenario.extracted_csv]) v log eq_refl H)
      as L.
    simpl in L. now inversion L. }
  subst v. split; [reflexivity|]. split; [|split].
  - vm_compute. tauto.
  - vm_compute. intuition discriminate.
  - intros C. inversion C.
Qed.

Lemma spelled_out_names_are_not_returned_witness :
  VTable Scenario.facies_table = VTable Scenario.facies_table /\
  In "GR" (columns Scenario.facies_table) /\
  ~ In "GR=Gamma Ray" (columns Scenario.facies_table) /\
  VTable Scenario.facies_table <>
    VTable (rename_columns_spec false Scenario.facies_table).
Proof.
  exact (spelled_out_names_are_not_returned Scenario.relabel
           (VTable Scenario.facies_table) _ eq_refl).
Defined.

(** C2, evaluated on the code: when both reads raise [NotImplementedError]
    the diagnostic line is printed, [data] is the string, and the call of
    [rename] on that string raises [AttributeError], which leaves the
    function: no string is returned. *)
Theorem sentinel_string_is_not_returned :
  forall (env : Collaborators) (abbreviations_only : bool) (fname : Fname)
         (first : string),
    REGISTRY_fetch env archive_name Unzip = Returns fname ->
    pd_read_csv env csv_relative_path (Some "python") =
      Raises NotImplementedError ->
    getitem0 fname = Returns first ->
    pd_read_csv env (str first) None = Raises NotImplementedError ->
    fetch_mcmurray_facies env abbreviations_only true [] =
      (Raises AttributeError,
       [EFetch archive_name Unzip;
        EReadCsv csv_relative_path (Some "python");
        EReadCsv (str first) None;
        EPrint could_not_read]).
Proof.
  intros env ab fname first F R1 G R2.
  rewrite (fetch_load_true env ab fname F).
  rewrite (load_data_second env fname first _ R1 G), R2. simpl.
  now rewrite rename_step_str.
Qed.

Lemma sentinel_string_is_not_returned_witness :
  fetch_mcmurray_facies Scenario.unsupported true true [] =
    (Raises AttributeError,
     [EFetch archive_name Unzip;
      EReadCsv csv_relative_path (Some "python");
      EReadCsv (str Scenario.extracted_csv) None;
      EPrint could_not_read]).
Proof.
  exact (sentinel_string_is_not_returned Scenario.unsupported true
           (PathList [Scenario.extracted_csv]) Scenario.extracted_csv
           eq_refl eq_refl eq_refl eq_refl).
Defined.

(** C3, evaluated on the code: the rename step builds no mapping, it passes
    one of the two lists as it is; and with the abbreviated header read and
    [abbreviations_only] false, the table returned is the one read, which is
    not the table the positional mapping would give. *)
Theorem rename_step_builds_no_mapping :
  (forall (env : Collaborators) (abbreviations_only : bool) (d : DataFrame)
          (log : list Event),
      snd (rename_step env abbreviations_only (VTable d) log) =
        (log ++ [ERename (ArgList (if abbreviations_only
                                   then abbreviated_columns
                                   else spelled_out_columns))])%list) /\
  fst (fetch_mcmurray_facies Scenario.dataset false true []) =
    Returns (VTable Scenario.facies_table) /\
  rename_calls (snd (fetch_mcmurray_facies Scenario.dataset false true [])) =
    [ERename (ArgList spelled_out_columns)] /\
  columns (rename_columns_spec false Scenario.facies_table) =
    spelled_out_columns /\
  columns Scenario.facies_table <> spelled_out_columns.
Proof.
  split; [|split; [|split; [|split]]].
  - intros env ab d log. rewrite rename_step_table.
    destruct (DataFrame_rename env d (rename_argument ab)); reflexivity.
  - reflexivity.
  - reflexivity.
  - reflexivity.
  - discriminate.
Qed.

(** With a [rename] that takes mappings only, the list it is given makes
    the call fail, and the failure leaves the function. *)
Example list_argument_rejected :
  fst (fetch_mcmurray_facies
         (mkCollaborators Scenario.registry_ok Scenario.csv_present
            Scenario.rename_mapping_only)
         true true []) = Raises (OtherError "TypeError").
Proof. reflexivity. Qed.

(** When the registry hands back one path instead of a list, [fname[0]] is
    the first character of that path, and the second read is made on it. *)
Example single_path_second_read_is_on_first_character :
  read_csv_calls (snd (fetch_mcmurray_facies Scenario.single_path true true [])) =
    [EReadCsv csv_relative_path (Some "python"); EReadCsv "/" None].
Proof. reflexivity. Qed.

(** * Further properties of [fetch_mcmurray_facies] *)

(** Splits a run with [load] true, after a fetch that returned [fname], on
    the answers of the reader and of [rename]: one goal for each path
    through the code. *)
Ltac load_cases env ab fname F :=
  let R1 := fresh "R1" in
  let R2 := fresh "R2" in
  let RN := fresh "RN" in
  let N1 := fresh "N1" in
  let N2 := fresh "N2" in
  let G := fresh "G" in
  let d := fresh "d" in
  let d' := fresh "d'" in
  let first := fresh "first" in
  let e := fresh "e" in
  rewrite (fetch_load_true env ab fname F);
  destruct (pd_read_csv env csv_relative_path (Some "python"))
    as [d|e] eqn:R1;
  [ rewrite (load_data_first env fname d _ R1), rename_step_table;
    destruct (DataFrame_rename env d (rename_argument ab))
      as [d'|e] eqn:RN
  | destruct (is_NotImplementedError e) eqn:N1;
    [ destruct e; try discriminate;
      destruct (getitem0 fname) as [first|e] eqn:G;
      [ rewrite (load_data_second env fname first _ R1 G);
        destruct (pd_read_csv env (str first) None) as [d|e] eqn:R2;
        [ rewrite rename_step_table;
          destruct (DataFrame_rename env d (rename_argument ab))
            as [d'|e] eqn:RN
        | destruct (is_NotImplementedError e) eqn:N2;
          [ rewrite rename_step_str | ] ]
      | rewrite (load_data_no_first_element env fname e _ R1 G) ]
    | rewrite (load_data_first_raises env fname e _ R1 N1) ] ].

(** The same for any value of [load] and any answer of the registry. *)
Ltac run_cases env ab load :=
  let fname := fresh "fname" in
  let F := fresh "F" in
  let e := fresh "e" in
  destruct (REGISTRY_fetch env archive_name Unzip) as [fname|e] eqn:F;
  [ destruct load;
    [ load_cases env ab fname F
    | rewrite (fetch_load_false env ab fname F) ]
  | rewrite (fetch_raises env ab load e F) ];
  simpl.

(** X1: whatever the flags, the registry is asked first and asked once,
    for [mcmurray_facies_v1.tar.gz] with the [Unzip] processor: the download
    is attempted even when [load] is false. *)
Theorem registry_is_asked_first_and_once :
  forall (env : Collaborators) (abbreviations_only load : bool),
    exists rest,
      snd (fetch_mcmurray_facies env abbreviations_only load []) =
        EFetch archive_name Unzip :: rest /\
      forall name p, ~ In (EFetch name p) rest.
Proof.
  intros env ab load. run_cases env ab load;
    eexists; (split; [reflexivity|]); intros name p H; simpl in H;
    intuition discriminate.
Qed.

(** X2: with [load] true, a value the function returns is a table, and it is
    a table [pd.read_csv] returned for one of the calls made: neither a path
    nor the diagnostic string nor the frame [rename] produced comes back. *)
Theorem returned_table_comes_from_a_read :
  forall (env : Collaborators) (abbreviations_only : bool) (v : PyVal)
         (log : list Event),
    fetch_mcmurray_facies env abbreviations_only true [] = (Returns v, log) ->
    exists d path engine,
      v = VTable d /\
      In (EReadCsv path engine) log /\
      pd_read_csv env path engine = Returns d.
Proof.
  intros env ab v log H.
  destruct (returns_only_after_fetch env ab true v log H) as [fname F].
  revert H. load_cases env ab fname F; simpl; intros H;
    try discriminate; inversion H; subst.
  - exists d, csv_relative_path, (Some "python"). simpl. auto 10.
  - exists d, (str first), None. simpl. auto 10.
Qed.

Lemma returned_table_comes_from_a_read_witness :
  exists d path engine,
    VTable Scenario.facies_table = VTable d /\
    In (EReadCsv path engine)
       [EFetch archive_name Unzip;
        EReadCsv csv_relative_path (Some "python");
        EReadCsv (str Scenario.extracted_csv) None;
        ERename (rename_argument true)] /\
    pd_read_csv Scenario.fallback path engine = Returns d.
Proof.
  exact (returned_table_comes_from_a_read Scenario.fallback true
           (VTable Scenario.facies_table) _ eq_refl).
Defined.

(** X3: [rename] is called only with [load] true and only after a read has
    returned a table; it is then called once, with the list the flag
    selects. *)
Theorem rename_is_called_once_after_a_read :
  forall (env : Collaborators) (abbreviations_only load : bool)
         (cols : ColumnsArg),
    In (ERename cols)
       (snd (fetch_mcmurray_facies env abbreviations_only load [])) ->
    load = true /\
    cols = rename_argument abbreviations_only /\
    rename_calls (snd (fetch_mcmurray_facies env abbreviations_only load [])) =
      [ERename (rename_argument abbreviations_only)] /\
    exists path engine d,
      In (EReadCsv path engine)
         (snd (fetch_mcmurray_facies env abbreviations_only load [])) /\
      pd_read_csv env path engine = Returns d.
Proof.
  intros env ab load cols. run_cases env ab load; intros H;
    repeat (destruct H as [H|H]; try discriminate); try contradiction;
    inversion H; subst; (split; [reflexivity|]); (split; [reflexivity|]);
    (split; [reflexivity|]).
  - exists csv_relative_path, (Some "python"), d. auto 10.
  - exists csv_relative_path, (Some "python"), d. auto 10.
  - exists (str first), None, d. auto 10.
  - exists (str first), None, d. auto 10.
Qed.

Lemma rename_is_called_once_after_a_read_witness :
  true = true /\
  ArgList spelled_out_columns = rename_argument false /\
  rename_calls (snd (fetch_mcmurray_facies Scenario.dataset false true [])) =
    [ERename (rename_argument false)] /\
  exists path engine d,
    In (EReadCsv path engine)
       (snd (fetch_mcmurray_facies Scenario.dataset false true [])) /\
    pd_read_csv Scenario.dataset path engine = Returns d.
Proof.
  apply (rename_is_called_once_after_a_read Scenario.dataset false true
           (ArgList spelled_out_columns)).
  simpl. right. right. left. reflexivity.
Defined.

(** X4: when the first read returns a table and [rename] returns, the
    function returns that table after exactly one read: the fetch result is
    not looked at, whatever it is, and the file read is the one at the
    relative path. *)
Theorem first_read_success_ignores_fetch_result :
  forall (env : Collaborators) (abbreviations_only : bool) (fname : Fname)
         (d d' : DataFrame),
    REGISTRY_fetch env archive_name Unzip = Returns fname ->
    pd_read_csv env csv_relative_path (Some "python") = Returns d ->
    DataFrame_rename env d (rename_argument abbreviations_only) = Returns d' ->
    fetch_mcmurray_facies env abbreviations_only true [] =
      (Returns (VTable d),
       [EFetch archive_name Unzip;
        EReadCsv csv_relative_path (Some "python");
        ERename (rename_argument abbreviations_only)]).
Proof.
  intros env ab fname d d' F R1 RN.
  rewrite (fetch_load_true env ab fname F).
  rewrite (load_data_first env fname d _ R1), rename_step_table, RN.
  reflexivity.
Qed.

Lemma first_read_success_ignores_fetch_result_witness :
  fetch_mcmurray_facies Scenario.dataset true true [] =
    (Returns (VTable Scenario.facies_table),
     [EFetch archive_name Unzip;
      EReadCsv csv_relative_path (Some "python");
      ERename (rename_argument true)]).
Proof.
  exact (first_read_success_ignores_fetch_result Scenario.dataset true
           (PathList [Scenario.extracted_csv]) Scenario.facies_table _
           eq_refl eq_refl eq_refl).
Defined.

(** X5: when the first read raises [NotImplementedError], [fname[0]] exists,
    the read of [str(fname[0])] with the default engine returns a table and
    [rename] returns, the function returns the table of that second read and
    prints nothing. *)
Theorem second_read_success_returns_its_table :
  forall (env : Collaborators) (abbreviations_only : bool) (fname : Fname)
         (first : string) (d d' : DataFrame),
    REGISTRY_fetch env archive_name Unzip = Returns fname ->
    pd_read_csv env csv_relative_path (Some "python") =
      Raises NotImplementedError ->
    getitem0 fname = Returns first ->
    pd_read_csv env (str first) None = Returns d ->
    DataFrame_rename env d (rename_argument abbreviations_only) = Returns d' ->
    fetch_mcmurray_facies env abbreviations_only true [] =
      (Returns (VTable d),
       [EFetch archive_name Unzip;
        EReadCsv csv_relative_path (Some "python");
        EReadCsv (str first) None;
        ERename (rename_argument abbreviations_only)]).
Proof.
  intros env ab fname first d d' F R1 G R2 RN.
  rewrite (fetch_load_true env ab fname F).
  rewrite (load_data_second env fname first _ R1 G), R2.
  rewrite rename_step_table, RN. reflexivity.
Qed.

Lemma second_read_success_returns_its_table_witness :
  fetch_mcmurray_facies Scenario.fallback false true [] =
    (Returns (VTable Scenario.facies_table),
     [EFetch archive_name Unzip;
      EReadCsv csv_relative_path (Some "python");
      EReadCsv (str Scenario.extracted_csv) None;
      ERename (rename_argument false)]).
Proof.
  exact (second_read_success_returns_its_table Scenario.fallback false
           (PathList [Scenario.extracted_csv]) Scenario.extracted_csv
           Scenario.facies_table _ eq_refl eq_refl eq_refl eq_refl eq_refl).
Defined.

(** X6: the call to [rename] stands outside the [try] blocks: whatever it
    raises on the table that was read leaves the function, a
    [NotImplementedError] included, and no table is returned. *)
Theorem rename_failure_escapes :
  forall (env : Collaborators) (abbreviations_only : bool) (fname : Fname)
         (d : DataFrame) (log : list Event) (e : PyExc),
    REGISTRY_fetch env archive_name Unzip = Returns fname ->
    load_data env fname [EFetch archive_name Unzip] = (Returns (VTable d), log) ->
    DataFrame_rename env d (rename_argument abbreviations_only) = Raises e ->
    fetch_mcmurray_facies env abbreviations_only true [] =
      (Raises e, (log ++ [ERename (rename_argument abbreviations_only)])%list).
Proof.
  intros env ab fname d log e F L RN.
  rewrite (fetch_load_true env ab fname F), L, rename_step_table, RN.
  reflexivity.
Qed.

Lemma rename_failure_escapes_witness :
  fetch_mcmurray_facies EdgeScenario.rename_fails true true [] =
    (Raises NotImplementedError,
     ([EFetch archive_name Unzip; EReadCsv csv_relative_path (Some "python")]
        ++ [ERename (rename_argument true)])%list).
Proof.
  exact (rename_failure_escapes EdgeScenario.rename_fails true
           (PathList [Scenario.extracted_csv]) Scenario.facies_table _
           NotImplementedError eq_refl eq_refl eq_refl).
Defined.

(** X7: when the first read raises [NotImplementedError] and the fetch
    result is empty (an empty list or an empty string), [fname[0]] raises
    [IndexError], which the handler does not catch: it leaves the function,
    no second read is made and nothing is printed. *)
Theorem empty_fetch_result_raises_index_error :
  forall (env : Collaborators) (abbreviations_only : bool) (fname : Fname),
    REGISTRY_fetch env archive_name Unzip = Returns fname ->
    pd_read_csv env csv_relative_path (Some "python") =
      Raises NotImplementedError ->
    fname = PathList [] \/ fname = PathStr "" ->
    fetch_mcmurray_facies env abbreviations_only true [] =
      (Raises IndexError,
       [EFetch archive_name Unzip;
        EReadCsv csv_relative_path (Some "python")]).
Proof.
  intros env ab fname F R1 E.
  assert (G : getitem0 fname = Raises IndexError)
    by (destruct E; subst; reflexivity).
  rewrite (fetch_load_true env ab fname F).
  rewrite (load_data_no_first_element env fname IndexError _ R1 G).
  reflexivity.
Qed.

Lemma empty_fetch_result_raises_index_error_witness :
  fetch_mcmurray_facies EdgeScenario.nothing_extracted true true [] =
    (Raises IndexError,
     [EFetch archive_name Unzip;
      EReadCsv csv_relative_path (Some "python")]).
Proof.
  apply (empty_fetch_result_raises_index_error EdgeScenario.nothing_extracted
           true (PathList [])).
  - reflexivity.
  - reflexivity.
  - left. reflexivity.
Defined.

(** X8: when the registry hands back one path, not a list, and the first
    read raises [NotImplementedError], the second read is made on the first
    character of that path, not on the path. *)
Theorem single_path_is_indexed_as_a_string :
  forall (env : Collaborators) (abbreviations_only : bool) (c : Ascii.ascii)
         (rest : string),
    REGISTRY_fetch env archive_name Unzip = Returns (PathStr (String c rest)) ->
    pd_read_csv env csv_relative_path (Some "python") =
      Raises NotImplementedError ->
    read_csv_calls
      (snd (fetch_mcmurray_facies env abbreviations_only true [])) =
      [EReadCsv csv_relative_path (Some "python");
       EReadCsv (String c EmptyString) None].
Proof.
  intros env ab c rest F R1.
  rewrite (fetch_load_true env ab _ F).
  rewrite (load_data_second env (PathStr (String c rest))
             (String c EmptyString) _ R1 eq_refl).
  unfold str.
  destruct (pd_read_csv env (String c EmptyString) None) as [d|e].
  - rewrite rename_step_table.
    destruct (DataFrame_rename env d (rename_argument ab)); reflexivity.
  - destruct (is_NotImplementedError e).
    + rewrite rename_step_str. reflexivity.
    + reflexivity.
Qed.

Lemma single_path_is_indexed_as_a_string_witness :
  read_csv_calls
    (snd (fetch_mcmurray_facies Scenario.single_path false true [])) =
    [EReadCsv csv_relative_path (Some "python"); EReadCsv "/" None].
Proof.
  exact (single_path_is_indexed_as_a_string Scenario.single_path false
           _ _ eq_refl eq_refl).
Defined.

(** X9: a line is printed exactly when [load] is true and both reads raise
    [NotImplementedError]; the line is then the diagnostic string.  On every
    other path, failures included, the function prints nothing. *)
Theorem diagnostic_is_printed_exactly_when_both_reads_are_unsupported :
  forall (env : Collaborators) (abbreviations_only load : bool)
         (line : string),
    In (EPrint line)
       (snd (fetch_mcmurray_facies env abbreviations_only load [])) <->
    (load = true /\
     line = could_not_read /\
     exists fname first,
       REGISTRY_fetch env archive_name Unzip = Returns fname /\
       pd_read_csv env csv_relative_path (Some "python") =
         Raises NotImplementedError /\
       getitem0 fname = Returns first /\
       pd_read_csv env (str first) None = Raises NotImplementedError).
Proof.
  intros env ab load line. run_cases env ab load; split.
  all: try (intros H; repeat (destruct H as [H|H]; try discriminate);
            try contradiction; fail).
  all: try (intros (L & E & fname0 & first0 & A & B & C & D); subst line;
            try congruence;
            inversion A; subst fname0;
            try (inversion B; subst; simpl in *; congruence);
            rewrite G in C; try congruence;
            inversion C; subst first0;
            rewrite R2 in D; inversion D; subst; simpl in *; congruence).
  - intros H. repeat (destruct H as [H|H]; try discriminate);
      try contradiction.
    inversion H; subst. destruct e; try discriminate.
    split; [reflexivity|]. split; [reflexivity|].
    exists fname, first. auto.
  - intros (_ & E & _). subst line. simpl. auto 10.
Qed.

Lemma diagnostic_is_printed_exactly_when_both_reads_are_unsupported_witness :
  In (EPrint could_not_read)
     (snd (fetch_mcmurray_facies Scenario.unsupported false true [])).
Proof.
  apply (proj2 (diagnostic_is_printed_exactly_when_both_reads_are_unsupported
                  Scenario.unsupported false true could_not_read)).
  split; [reflexivity|]. split; [reflexivity|].
  exists (PathList [Scenario.extracted_csv]), Scenario.extracted_csv.
  repeat split; reflexivity.
Defined.

(** X10: the flag [abbreviations_only] changes nothing but the argument of
    the call to [rename]: the fetch, the reads and the printed line are the
    same, in the same order, for both values of the flag. *)
Theorem abbreviations_only_changes_only_the_rename_argument :
  forall (env : Collaborators) (load : bool),
    other_events (snd (fetch_mcmurray_facies env true load [])) =
    other_events (snd (fetch_mcmurray_facies env false load [])).
Proof.
  intros env load.
  destruct (REGISTRY_fetch env archive_name Unzip) as [fname|e] eqn:F.
  - destruct load.
    + rewrite (fetch_load_true env true fname F),
              (fetch_load_true env false fname F).
      destruct (load_data env fname [EFetch archive_name Unzip])
        as [[[s|l|d]|e] log]; try reflexivity.
      rewrite !rename_step_table.
      destruct (DataFrame_rename env d (rename_argument true));
        destruct (DataFrame_rename env d (rename_argument false));
        simpl; unfold other_events; rewrite !filter_app; reflexivity.
    + now rewrite (fetch_load_false env true fname F),
                  (fetch_load_false env false fname F).
  - now rewrite (fetch_raises env true load e F),
                (fetch_raises env false load e F).
Qed.

(** X11: a [NotImplementedError] raised by either read never reaches the
    caller: when the function raises [NotImplementedError], the registry or
    [rename] raised it. *)
Theorem not_implemented_from_a_read_never_escapes :
  forall (env : Collaborators) (abbreviations_only load : bool)
         (log : list Event),
    fetch_mcmurray_facies env abbreviations_only load [] =
      (Raises NotImplementedError, log) ->
    REGISTRY_fetch env archive_name Unzip = Raises NotImplementedError \/
    exists d,
      DataFrame_rename env d (rename_argument abbreviations_only) =
        Raises NotImplementedError.
Proof.
  intros env ab load log. run_cases env ab load; intros H;
    try discriminate; inversion H; subst; try discriminate.
  - right. now exists d.
  - right. now exists d.
  - now left.
Qed.

Lemma not_implemented_from_a_read_never_escapes_witness :
  REGISTRY_fetch EdgeScenario.rename_fails archive_name Unzip =
    Raises NotImplementedError \/
  exists d,
    DataFrame_rename EdgeScenario.rename_fails d (rename_argument false) =
      Raises NotImplementedError.
Proof.
  exact (not_implemented_from_a_read_never_escapes EdgeScenario.rename_fails
           false true _ eq_refl).
Defined.
